(** * Eigen/src/Array/Replicate.h : the replication expression node

    A shallow embedding of [Replicate<MatrixType,RowFactor,ColFactor>], of its
    traits and of the three factory functions of the header, followed by the
    properties of the replication view.

    Conventions of the embedding.
    - A C++ [int] is a [Z]; the only arithmetic of the header that can leave
      the 32-bit range, the product in [rows()] and [cols()], has its
      two's-complement wrap-around written out ([Int.mul]).
    - [a % b] is C++ truncated remainder ([Z.rem]); it has no value when
      [b = 0] or when the quotient overflows, so [Int.rem] is partial.
    - An accessor that can fail (a failed [ei_assert], an undefined
      operation) returns [option]; [None] is "no value".
    - Template parameters are parameters of the Rocq type
      [Replicate MatrixType RowFactor ColFactor], so the compile-time tests
      [RowFactor==1] and [ColFactor==1] are tests on the type's indices. *)

From Stdlib Require Import ZArith Zdiv List Bool Lia.
Import ListNotations.
Local Open Scope Z_scope.

(** ** C++ [int] *)
Module Int.

Definition min_int : Z := - 2 ^ 31.
Definition max_int : Z := 2 ^ 31 - 1.

Definition in_range (z : Z) : Prop := min_int <= z <= max_int.

(** Reduction of a mathematical integer to the 32-bit signed range. *)
Definition wrap (z : Z) : Z := (z + 2 ^ 31) mod 2 ^ 32 - 2 ^ 31.

(** [a * b] on [int]. *)
Definition mul (a b : Z) : Z := wrap (a * b).

(** [a % b] on [int]: truncated remainder, undefined for a zero divisor and
    for [INT_MIN % -1]. *)
Definition rem (a b : Z) : option Z :=
  if (b =? 0) || ((a =? min_int) && (b =? -1)) then None else Some (Z.rem a b).

End Int.

(** ** A small error monad for accessors that may have no value *)
Definition bind {A B : Type} (m : option A) (k : A -> option B) : option B :=
  match m with
  | Some a => k a
  | None => None
  end.

Notation "x <- m ;; k" := (bind m (fun x => k))
  (at level 61, m at next level, right associativity).

(** ** The interfaces the header consumes *)

(** The compile-time descriptor [ei_traits<T>] of an expression type, with the
    enumerators the header reads and defines.  Enumerators are constant
    expressions: a product that overflows is rejected by the compiler, so
    they are exact integers. *)
Record ei_traits : Type := {
  RowsAtCompileTime : Z;
  ColsAtCompileTime : Z;
  MaxRowsAtCompileTime : Z;
  MaxColsAtCompileTime : Z;
  Flags : Z;
  CoeffReadCost : Z
}.

(** The direction tag of [VectorwiseOp]. *)
Inductive DirectionType : Type := Vertical | Horizontal.

Definition DirectionType_eqb (a b : DirectionType) : bool :=
  match a, b with
  | Vertical, Vertical | Horizontal, Horizontal => true
  | _, _ => false
  end.

(** The marker [Dynamic] of a size or factor that is only known at run time. *)
Class DynamicMarker : Type := Dynamic : Z.

Section Replicate.

(** [MatrixType::Scalar]. *)
Variable Scalar : Type.

(** The constants [Dynamic] and [HereditaryBits] are declared elsewhere in
    the library; the header only names them. *)
Context {Dynamic_marker : DynamicMarker}.
Variable HereditaryBits : Z.

(** The run-time interface of a dense expression, as the header uses it:
    [rows()], [cols()] and the read accessor [coeff(row, col)].  [coeff]
    has no value where the expression's own contract is broken. *)
Class DenseCoeffs (T : Type) : Type := {
  rows : T -> Z;
  cols : T -> Z;
  coeff : T -> Z -> Z -> option Scalar
}.

(** Modelled from the spec: the helper [ei_int_if_dynamic<Value>] is declared
    outside this header.  Spec, section 3: each factor is "either a
    compile-time constant or a runtime value": [value()] is the stored
    run-time integer when [Value] is the dynamic marker and the compile-time
    [Value] otherwise. *)
Record ei_int_if_dynamic (Value : Z) : Type := mk_int_if_dynamic {
  m_value : Z
}.
Arguments mk_int_if_dynamic {Value} _.
Arguments m_value {Value} _.

Definition value {Value : Z} (v : ei_int_if_dynamic Value) : Z :=
  if Value =? Dynamic then m_value v else Value.

(** *** [ei_traits<Replicate<MatrixType,RowFactor,ColFactor> >]

    [MatrixType_traits] is [ei_traits<MatrixType>]; [_MatrixTypeNested_traits]
    is the descriptor of [_MatrixTypeNested], the type under which the source
    is stored in the node ([ei_nested] and [ei_unref] are not part of the
    header). *)
Definition ei_traits_Replicate
    (MatrixType_traits _MatrixTypeNested_traits : ei_traits)
    (RowFactor ColFactor : Z) : ei_traits :=
  let Rows :=
    if (RowFactor =? Dynamic)
       || (RowsAtCompileTime MatrixType_traits =? Dynamic)
    then Dynamic
    else RowFactor * RowsAtCompileTime MatrixType_traits in
  let Cols :=
    if (ColFactor =? Dynamic)
       || (ColsAtCompileTime MatrixType_traits =? Dynamic)
    then Dynamic
    else ColFactor * ColsAtCompileTime MatrixType_traits in
  {| RowsAtCompileTime := Rows;
     ColsAtCompileTime := Cols;
     MaxRowsAtCompileTime := Rows;
     MaxColsAtCompileTime := Cols;
     Flags := Z.land (Flags _MatrixTypeNested_traits) HereditaryBits;
     CoeffReadCost := CoeffReadCost _MatrixTypeNested_traits |}.

(** *** class [Replicate]

    [m_matrix] has type [MatrixType::Nested], a constant copy of, or a
    constant reference to, the source; both read the same [rows()], [cols()]
    and [coeff()], so the node stores the source value.  The three members
    are [const]. *)
Record Replicate (MatrixType : Type) (RowFactor ColFactor : Z) : Type :=
  mk_Replicate {
    m_matrix : MatrixType;
    m_rowFactor : ei_int_if_dynamic RowFactor;
    m_colFactor : ei_int_if_dynamic ColFactor
  }.
Arguments mk_Replicate {MatrixType RowFactor ColFactor} _ _ _.
Arguments m_matrix {MatrixType RowFactor ColFactor} _.
Arguments m_rowFactor {MatrixType RowFactor ColFactor} _.
Arguments m_colFactor {MatrixType RowFactor ColFactor} _.

(** [explicit Replicate(const OriginalMatrixType& matrix)]: the static
    assertion makes the argument a [MatrixType]; the run-time [ei_assert]
    rejects a dynamic factor. *)
Definition Replicate_fixed {MatrixType : Type} (RowFactor ColFactor : Z)
    (matrix : MatrixType) : option (Replicate MatrixType RowFactor ColFactor) :=
  if negb (RowFactor =? Dynamic) && negb (ColFactor =? Dynamic)
  then Some (mk_Replicate matrix (mk_int_if_dynamic RowFactor)
                                 (mk_int_if_dynamic ColFactor))
  else None.

(** [Replicate(const OriginalMatrixType& matrix, int rowFactor, int colFactor)]. *)
Definition Replicate_runtime {MatrixType : Type} (RowFactor ColFactor : Z)
    (matrix : MatrixType) (rowFactor colFactor : Z)
    : Replicate MatrixType RowFactor ColFactor :=
  mk_Replicate matrix (mk_int_if_dynamic rowFactor) (mk_int_if_dynamic colFactor).

Section Members.

Context {MatrixType : Type} `{DenseCoeffs MatrixType}.
Context {RowFactor ColFactor : Z}.

Definition Replicate_rows (x : Replicate MatrixType RowFactor ColFactor) : Z :=
  Int.mul (rows (m_matrix x)) (value (m_rowFactor x)).

Definition Replicate_cols (x : Replicate MatrixType RowFactor ColFactor) : Z :=
  Int.mul (cols (m_matrix x)) (value (m_colFactor x)).

Definition Replicate_coeff (x : Replicate MatrixType RowFactor ColFactor)
    (row col : Z) : option Scalar :=
  if RowFactor =? 1 then
    c <- Int.rem col (cols (m_matrix x)) ;;
    coeff (m_matrix x) (rows (m_matrix x)) c
  else if ColFactor =? 1 then
    r <- Int.rem row (rows (m_matrix x)) ;;
    coeff (m_matrix x) r (cols (m_matrix x))
  else
    r <- Int.rem row (rows (m_matrix x)) ;;
    c <- Int.rem col (cols (m_matrix x)) ;;
    coeff (m_matrix x) r c.

End Members.

(** A replication node is itself a dense expression. *)
#[export] Instance Replicate_DenseCoeffs (MatrixType : Type)
    `{DenseCoeffs MatrixType} (RowFactor ColFactor : Z)
    : DenseCoeffs (Replicate MatrixType RowFactor ColFactor) :=
  {| rows := Replicate_rows;
     cols := Replicate_cols;
     coeff := Replicate_coeff |}.

(** *** The factory functions *)

(** [DenseBase<Derived>::replicate<RowFactor,ColFactor>()]. *)
Definition replicate_fixed {Derived : Type} (RowFactor ColFactor : Z)
    (derived : Derived) : option (Replicate Derived RowFactor ColFactor) :=
  Replicate_fixed RowFactor ColFactor derived.

(** [DenseBase<Derived>::replicate(int rowFactor, int colFactor)]. *)
Definition replicate {Derived : Type} (derived : Derived)
    (rowFactor colFactor : Z) : Replicate Derived Dynamic Dynamic :=
  Replicate_runtime Dynamic Dynamic derived rowFactor colFactor.

(** [VectorwiseOp<ExpressionType,Direction>] holds the expression it was
    built from. *)
Record VectorwiseOp (ExpressionType : Type) (Direction : DirectionType) : Type :=
  mk_VectorwiseOp { _expression : ExpressionType }.
Arguments mk_VectorwiseOp {ExpressionType} Direction _.
Arguments _expression {ExpressionType Direction} _.

(** [VectorwiseOp<ExpressionType,Direction>::replicate(int factor)]. *)
Definition VectorwiseOp_replicate {ExpressionType : Type}
    {Direction : DirectionType}
    (v : VectorwiseOp ExpressionType Direction) (factor : Z)
    : Replicate ExpressionType
        (if DirectionType_eqb Direction Vertical then Dynamic else 1)
        (if DirectionType_eqb Direction Horizontal then Dynamic else 1) :=
  Replicate_runtime
    (if DirectionType_eqb Direction Vertical then Dynamic else 1)
    (if DirectionType_eqb Direction Horizontal then Dynamic else 1)
    (_expression v)
    (if DirectionType_eqb Direction Vertical then factor else 1)
    (if DirectionType_eqb Direction Horizontal then factor else 1).

(** *** The contract of the element accessor, in the words of the spec *)

(** Spec, section 4.2: [0 <= row < outputRows] and [0 <= col < outputCols]. *)
Definition valid_index {T : Type} `{DenseCoeffs T} (x : T) (row col : Z) : Prop :=
  0 <= row < rows x /\ 0 <= col < cols x.

(** Spec, section 4.2: "coeff(row, col) returns the source element at
    (row mod sourceRows, col mod sourceCols)". *)
Definition coeff_contract {MatrixType : Type} `{DenseCoeffs MatrixType}
    {RowFactor ColFactor : Z}
    (x : Replicate MatrixType RowFactor ColFactor) (row col : Z)
    : option Scalar :=
  coeff (m_matrix x) (row mod rows (m_matrix x)) (col mod cols (m_matrix x)).

(** Spec, section 4.2: "general case applies both moduli": the last branch of
    [Replicate::coeff], taken on its own. *)
Definition coeff_general_case {MatrixType : Type} `{DenseCoeffs MatrixType}
    {RowFactor ColFactor : Z}
    (x : Replicate MatrixType RowFactor ColFactor) (row col : Z)
    : option Scalar :=
  r <- Int.rem row (rows (m_matrix x)) ;;
  c <- Int.rem col (cols (m_matrix x)) ;;
  coeff (m_matrix x) r c.

(** A source that checks the indices it is given (spec, section 7: an
    out-of-range index access is reported by an assertion): [coeff] has a
    value only inside the source. *)
Definition checked_source (T : Type) `{DenseCoeffs T} : Prop :=
  forall (t : T) (row col : Z),
    coeff t row col <> None -> 0 <= row < rows t /\ 0 <= col < cols t.

(** *** A plain dense matrix, the leaf of an expression tree *)

(** Modelled from the spec: the plain matrix class is defined outside this
    header.  Spec, sections 6 and 7: a source offers its row and column
    counts and a per-element read accessor, and an out-of-range index access
    is "reported via an assertion that terminates execution".  A matrix is
    the list of its rows; [coeff] has a value exactly at the indices inside
    the matrix. *)
Definition Matrix : Type := list (list Scalar).

Definition Matrix_rows (m : Matrix) : Z := Z.of_nat (length m).

Definition Matrix_cols (m : Matrix) : Z :=
  match m with
  | [] => 0
  | r :: _ => Z.of_nat (length r)
  end.

Definition Matrix_coeff (m : Matrix) (row col : Z) : option Scalar :=
  if (0 <=? row) && (row <? Matrix_rows m) && (0 <=? col) && (col <? Matrix_cols m)
  then r <- nth_error m (Z.to_nat row) ;; nth_error r (Z.to_nat col)
  else None.

#[export] Instance Matrix_DenseCoeffs : DenseCoeffs Matrix :=
  {| rows := Matrix_rows; cols := Matrix_cols; coeff := Matrix_coeff |}.

(** *** The members again, with the memory they read made explicit

    [rows()], [cols()] and [coeff()] are [const] member functions of an object
    whose members are [const].  Here an observation is a state transformer on
    the pair of the node and the memory [World] the source expression lives
    in; the calls into the source are the only steps that are handed the
    memory.  Arguments are evaluated left to right. *)
Section Effects.

Variable World : Type.

Definition ST (S A : Type) : Type := S -> A * S.

Definition ret {S A : Type} (a : A) : ST S A := fun s => (a, s).

Definition bindST {S A B : Type} (m : ST S A) (k : A -> ST S B) : ST S B :=
  fun s => let (a, s') := m s in k a s'.

Notation "x <~ m ;; k" := (bindST m (fun x => k))
  (at level 61, m at next level, right associativity).

(** The interface of a source expression whose accessors run on the memory. *)
Class DenseCoeffsST (T : Type) : Type := {
  rowsST : T -> ST World Z;
  colsST : T -> ST World Z;
  coeffST : T -> Z -> Z -> ST World (option Scalar)
}.

(** A source whose accessors are [const]: they return the memory they were
    given. *)
Definition const_source {T : Type} `{DenseCoeffsST T} : Prop :=
  (forall t w, snd (rowsST t w) = w) /\
  (forall t w, snd (colsST t w) = w) /\
  (forall t row col w, snd (coeffST t row col w) = w).

(** What a source shows when it is read in the memory [w]. *)
Definition observe {T : Type} `{DenseCoeffsST T} (w : World) : DenseCoeffs T :=
  {| rows := fun t => fst (rowsST t w);
     cols := fun t => fst (colsST t w);
     coeff := fun t row col => fst (coeffST t row col w) |}.

Section MembersST.

Context {MatrixType : Type} `{DenseCoeffsST MatrixType}.
Context {RowFactor ColFactor : Z}.

Let Self : Type := (Replicate MatrixType RowFactor ColFactor * World)%type.

(** Reading a member of [*this]. *)
Definition member {A : Type}
    (f : Replicate MatrixType RowFactor ColFactor -> A) : ST Self A :=
  fun s => (f (fst s), s).

(** Calling a member function of the source. *)
Definition call {A : Type} (f : ST World A) : ST Self A :=
  fun s => let (a, w) := f (snd s) in (a, (fst s, w)).

Definition Replicate_rowsST : ST Self Z :=
  m <~ member m_matrix ;;
  r <~ call (rowsST m) ;;
  f <~ member m_rowFactor ;;
  ret (Int.mul r (value f)).

Definition Replicate_colsST : ST Self Z :=
  m <~ member m_matrix ;;
  c <~ call (colsST m) ;;
  f <~ member m_colFactor ;;
  ret (Int.mul c (value f)).

Definition Replicate_coeffST (row col : Z) : ST Self (option Scalar) :=
  m <~ member m_matrix ;;
  if RowFactor =? 1 then
    R <~ call (rowsST m) ;;
    C <~ call (colsST m) ;;
    match Int.rem col C with
    | Some c => call (coeffST m R c)
    | None => ret None
    end
  else if ColFactor =? 1 then
    R <~ call (rowsST m) ;;
    C <~ call (colsST m) ;;
    match Int.rem row R with
    | Some r => call (coeffST m r C)
    | None => ret None
    end
  else
    R <~ call (rowsST m) ;;
    C <~ call (colsST m) ;;
    match Int.rem row R, Int.rem col C with
    | Some r, Some c => call (coeffST m r c)
    | _, _ => ret None
    end.

End MembersST.

End Effects.

(** A matrix kept in memory: the memory is the matrix itself and the handle
    on it carries nothing. *)
#[export] Instance Matrix_DenseCoeffsST : DenseCoeffsST Matrix unit :=
  {| rowsST := fun _ w => (Matrix_rows w, w);
     colsST := fun _ w => (Matrix_cols w, w);
     coeffST := fun _ row col w => (Matrix_coeff w row col, w) |}.

End Replicate.

Arguments mk_int_if_dynamic {Value} _.
Arguments m_value {Value} _.
Arguments mk_Replicate {MatrixType RowFactor ColFactor} _ _ _.
Arguments m_matrix {MatrixType RowFactor ColFactor} _.
Arguments m_rowFactor {MatrixType RowFactor ColFactor} _.
Arguments m_colFactor {MatrixType RowFactor ColFactor} _.
Arguments mk_VectorwiseOp {ExpressionType} Direction _.
Arguments _expression {ExpressionType Direction} _.
Arguments rows {Scalar T DenseCoeffs} _.
Arguments cols {Scalar T DenseCoeffs} _.
Arguments coeff {Scalar T DenseCoeffs} _ _ _.
Arguments Replicate_rows {Scalar Dynamic_marker MatrixType H RowFactor ColFactor} x.
Arguments Replicate_cols {Scalar Dynamic_marker MatrixType H RowFactor ColFactor} x.
Arguments Replicate_coeff {Scalar MatrixType H RowFactor ColFactor} x row col.
Arguments valid_index {Scalar T H} x row col.
Arguments checked_source {Scalar} T {H}.
Arguments coeff_contract {Scalar MatrixType H RowFactor ColFactor} x row col.
Arguments coeff_general_case {Scalar MatrixType H RowFactor ColFactor} x row col.
Arguments Matrix_rows {Scalar} m.
Arguments Matrix_cols {Scalar} m.
Arguments Matrix_coeff {Scalar} m row col.
Arguments rowsST {Scalar World T DenseCoeffsST} _ _.
Arguments colsST {Scalar World T DenseCoeffsST} _ _.
Arguments coeffST {Scalar World T DenseCoeffsST} _ _ _ _.
Arguments const_source {Scalar World} T {H}.
Arguments observe {Scalar World T H} w.
Arguments Replicate_rowsST {Scalar Dynamic_marker World MatrixType H RowFactor ColFactor} _.
Arguments Replicate_colsST {Scalar Dynamic_marker World MatrixType H RowFactor ColFactor} _.
Arguments Replicate_coeffST {Scalar World MatrixType H RowFactor ColFactor} row col _.

(** ** The matrices of the scenarios of the spec, section 8 *)

(** [[1,2],[3,4]]. *)
Definition M22 : Matrix Z := [[1; 2]; [3; 4]].

(** The row vector [5,6,7]. *)
Definition row567 : Matrix Z := [[5; 6; 7]].

(** The column vector [0,1,2,3,4]. *)
Definition col5 : Matrix Z := [[0]; [1]; [2]; [3]; [4]].

(** The value of [Dynamic] is not given by the header; the library has used
    10000 and, later, -1.  The scenarios are run with both. *)
Definition Dynamic_values : list DynamicMarker := [10000; -1].

(** ** Two properties of the spec, section 8, as they are worded there *)

(** "replicate(M, rf, cf) has exactly rf*R rows and cf*C columns", for all
    positive factors. *)
Definition rows_cols_claim (D : DynamicMarker) : Prop :=
  forall (M : Matrix Z) (rf cf : Z),
    0 < rf -> 0 < cf ->
    rows (replicate M rf cf) = rf * rows M /\
    cols (replicate M rf cf) = cf * cols M.

(** "replicating an already-replicated view with factors (rf1,cf1) then
    (rf2,cf2) yields the same elements as a single replicate with factors
    (rf1*rf2, cf1*cf2)". *)
Definition nested_replicate_claim (D : DynamicMarker) : Prop :=
  forall (M : Matrix Z) (rf1 cf1 rf2 cf2 row col : Z),
    0 < rf1 -> 0 < cf1 -> 0 < rf2 -> 0 < cf2 ->
    valid_index (replicate (replicate M rf1 cf1) rf2 cf2) row col ->
    coeff (replicate (replicate M rf1 cf1) rf2 cf2) row col
    = coeff (replicate M (rf1 * rf2) (cf1 * cf2)) row col.

(** ** Arithmetic of [int] *)
Module IntFacts.

Lemma wrap_in_range (z : Z) : Int.in_range z -> Int.wrap z = z.
Proof.
  unfold Int.in_range, Int.wrap, Int.min_int, Int.max_int. intros Hz.
  rewrite Z.mod_small; lia.
Qed.

Lemma mul_exact (a b : Z) : Int.in_range (a * b) -> Int.mul a b = a * b.
Proof. apply wrap_in_range. Qed.

Lemma rem_defined (a b : Z) :
  0 <= a -> 0 < b -> Int.rem a b = Some (a mod b).
Proof.
  intros Ha Hb. unfold Int.rem, Int.min_int.
  replace (b =? 0) with false by (symmetry; apply Z.eqb_neq; lia).
  replace (b =? -1) with false by (symmetry; apply Z.eqb_neq; lia).
  rewrite andb_false_r. simpl.
  now rewrite Z.rem_mod_nonneg by lia.
Qed.

Lemma mod_of_multiple (a n k : Z) :
  0 < n -> 0 < k -> (a mod (n * k)) mod n = a mod n.
Proof.
  intros Hn Hk. apply Z.mod_mod_divide.
  exists k. lia.
Qed.

End IntFacts.

(** ** The plain matrix checks its indices *)
Lemma Matrix_checked_source (Scalar : Type) : checked_source (Matrix Scalar).
Proof.
  intros m row col. simpl. unfold Matrix_coeff.
  destruct (0 <=? row) eqn:E1; simpl; [|congruence].
  destruct (row <? Matrix_rows m) eqn:E2; simpl; [|congruence].
  destruct (0 <=? col) eqn:E3; simpl; [|congruence].
  destruct (col <? Matrix_cols m) eqn:E4; simpl; [|congruence].
  intros _. apply Z.leb_le in E1, E3. apply Z.ltb_lt in E2, E4. lia.
Qed.

(** ** The node on any source *)
Section Properties.

Context {Scalar : Type} {Dynamic_marker : DynamicMarker}.
Context {MatrixType : Type} {source : DenseCoeffs Scalar MatrixType}.

(** What the two constructors store. *)
Lemma Replicate_fixed_Some (RowFactor ColFactor : Z) (matrix : MatrixType)
    (x : Replicate MatrixType RowFactor ColFactor) :
  Replicate_fixed RowFactor ColFactor matrix = Some x ->
  m_matrix x = matrix /\
  value (m_rowFactor x) = RowFactor /\ value (m_colFactor x) = ColFactor.
Proof.
  unfold Replicate_fixed, value.
  destruct (RowFactor =? Dynamic) eqn:Er; simpl; [discriminate|].
  destruct (ColFactor =? Dynamic) eqn:Ec; simpl; [discriminate|].
  intros [= <-]. simpl. auto.
Qed.

Lemma replicate_stores (matrix : MatrixType) (rowFactor colFactor : Z) :
  m_matrix (replicate matrix rowFactor colFactor) = matrix /\
  value (m_rowFactor (replicate matrix rowFactor colFactor)) = rowFactor /\
  value (m_colFactor (replicate matrix rowFactor colFactor)) = colFactor.
Proof.
  unfold replicate, Replicate_runtime, value. simpl.
  now rewrite Z.eqb_refl.
Qed.

Section Node.

Context {RowFactor ColFactor : Z}.
Implicit Type x : Replicate MatrixType RowFactor ColFactor.

Lemma Replicate_rows_exact x :
  Int.in_range (rows (m_matrix x) * value (m_rowFactor x)) ->
  rows x = rows (m_matrix x) * value (m_rowFactor x).
Proof. apply IntFacts.mul_exact. Qed.

Lemma Replicate_cols_exact x :
  Int.in_range (cols (m_matrix x) * value (m_colFactor x)) ->
  cols x = cols (m_matrix x) * value (m_colFactor x).
Proof. apply IntFacts.mul_exact. Qed.

(** A valid index exists only over a source that has rows and columns. *)
Lemma valid_index_source_nonempty x (row col : Z) :
  0 <= rows (m_matrix x) -> 0 <= cols (m_matrix x) ->
  valid_index x row col ->
  0 < rows (m_matrix x) /\ 0 < cols (m_matrix x).
Proof.
  intros HR HC [Hr Hc]. simpl in Hr, Hc.
  unfold Replicate_rows, Replicate_cols, Int.mul in Hr, Hc.
  split.
  - destruct (Z.eq_dec (rows (m_matrix x)) 0) as [E|]; [|lia].
    rewrite E in Hr. vm_compute in Hr. destruct Hr as [H0 H1].
    destruct row; try discriminate; exfalso; auto.
  - destruct (Z.eq_dec (cols (m_matrix x)) 0) as [E|]; [|lia].
    rewrite E in Hc. vm_compute in Hc. destruct Hc as [H0 H1].
    destruct col; try discriminate; exfalso; auto.
Qed.

(** Away from the two fast paths, [coeff] is its last branch. *)
Lemma Replicate_coeff_general x (row col : Z) :
  RowFactor <> 1 -> ColFactor <> 1 ->
  coeff x row col = coeff_general_case x row col.
Proof.
  intros Hr Hc. simpl. unfold Replicate_coeff, coeff_general_case.
  apply Z.eqb_neq in Hr, Hc. now rewrite Hr, Hc.
Qed.

(** The last branch meets the contract at every valid index. *)
Lemma coeff_general_case_contract x (row col : Z) :
  0 <= rows (m_matrix x) -> 0 <= cols (m_matrix x) ->
  valid_index x row col ->
  coeff_general_case x row col = coeff_contract x row col.
Proof.
  intros HR HC Hv.
  destruct (valid_index_source_nonempty x row col HR HC Hv) as [HR' HC'].
  destruct Hv as [Hrow Hcol].
  unfold coeff_general_case, coeff_contract.
  rewrite (IntFacts.rem_defined row) by lia.
  rewrite (IntFacts.rem_defined col) by lia.
  reflexivity.
Qed.

(** The two fast paths, as they are written: the branch for a row factor of
    1 does not read [row], the branch for a column factor of 1 does not read
    [col]; each passes the size of the source in its place. *)
Lemma Replicate_coeff_row_factor_one x (row col : Z) :
  RowFactor = 1 ->
  coeff x row col
  = (c <- Int.rem col (cols (m_matrix x)) ;;
     coeff (m_matrix x) (rows (m_matrix x)) c).
Proof.
  intros E. simpl. unfold Replicate_coeff.
  apply Z.eqb_eq in E. now rewrite E.
Qed.

Lemma Replicate_coeff_col_factor_one x (row col : Z) :
  RowFactor <> 1 -> ColFactor = 1 ->
  coeff x row col
  = (r <- Int.rem row (rows (m_matrix x)) ;;
     coeff (m_matrix x) r (cols (m_matrix x))).
Proof.
  intros N E. simpl. unfold Replicate_coeff.
  apply Z.eqb_neq in N. apply Z.eqb_eq in E. now rewrite N, E.
Qed.

(** Over a source that checks its indices, a node with a compile-time factor
    of 1 has no element at all. *)
Lemma fast_paths_have_no_value x (row col : Z) :
  checked_source MatrixType ->
  RowFactor = 1 \/ ColFactor = 1 ->
  coeff x row col = None.
Proof.
  intros Hck Hf.
  destruct (Z.eq_dec RowFactor 1) as [Er | Nr].
  - rewrite Replicate_coeff_row_factor_one by assumption.
    destruct (Int.rem col _) as [c|]; [|reflexivity]. simpl.
    destruct (coeff (m_matrix x) (rows (m_matrix x)) c) as [v|] eqn:Ev;
      [|reflexivity].
    destruct (Hck (m_matrix x) (rows (m_matrix x)) c) as [Hr _];
      [rewrite Ev; discriminate | lia].
  - destruct Hf as [Er | Ec]; [contradiction|].
    rewrite Replicate_coeff_col_factor_one by assumption.
    destruct (Int.rem row _) as [r|]; [|reflexivity]. simpl.
    destruct (coeff (m_matrix x) r (cols (m_matrix x))) as [v|] eqn:Ev;
      [|reflexivity].
    destruct (Hck (m_matrix x) r (cols (m_matrix x))) as [_ Hc];
      [rewrite Ev; discriminate | lia].
Qed.

End Node.

End Properties.

(** ** Shape of the node *)
Section Shape.

Context {Scalar : Type} {Dynamic_marker : DynamicMarker}.
Context {MatrixType : Type} {source : DenseCoeffs Scalar MatrixType}.

(** C3, amended.  For a source [M] with R rows and C columns and factors
    [rf], [cf] whose products [rf * R] and [cf * C] are representable as a
    C++ [int], the node built by either factory has [rows() = rf * R] and
    [cols() = cf * C]. *)
Theorem Replicate_rows_cols_representable (M : MatrixType) (rf cf : Z) :
  Int.in_range (rf * rows M) -> Int.in_range (cf * cols M) ->
  (rows (replicate M rf cf) = rf * rows M /\
   cols (replicate M rf cf) = cf * cols M) /\
  (forall x : Replicate MatrixType rf cf,
     replicate_fixed rf cf M = Some x ->
     rows x = rf * rows M /\ cols x = cf * cols M).
Proof.
  intros Hr Hc. split.
  - destruct (replicate_stores M rf cf) as (Hm & Hrf & Hcf).
    rewrite Replicate_rows_exact, Replicate_cols_exact;
      rewrite ?Hm, ?Hrf, ?Hcf; try (rewrite Z.mul_comm; assumption).
    split; apply Z.mul_comm.
  - intros x Hx. apply Replicate_fixed_Some in Hx. destruct Hx as (Hm & Hrf & Hcf).
    rewrite Replicate_rows_exact, Replicate_cols_exact;
      rewrite ?Hm, ?Hrf, ?Hcf; try (rewrite Z.mul_comm; assumption).
    split; apply Z.mul_comm.
Qed.

(** C5.  The constructor that takes only the source fails when the row
    factor or the column factor is the dynamic marker, and builds the node,
    holding the source and the two factors, when neither is. *)
Theorem Replicate_fixed_assertion (RowFactor ColFactor : Z) (matrix : MatrixType) :
  (RowFactor = Dynamic \/ ColFactor = Dynamic ->
   Replicate_fixed RowFactor ColFactor matrix = None) /\
  (RowFactor <> Dynamic /\ ColFactor <> Dynamic ->
   exists x, Replicate_fixed RowFactor ColFactor matrix = Some x /\
             m_matrix x = matrix /\
             value (m_rowFactor x) = RowFactor /\
             value (m_colFactor x) = ColFactor).
Proof.
  unfold Replicate_fixed. split.
  - intros [E | E]; apply Z.eqb_eq in E; rewrite E; simpl;
      [reflexivity | now rewrite andb_false_r].
  - intros [Er Ec]. apply Z.eqb_neq in Er, Ec. rewrite Er, Ec. simpl.
    eexists. split; [reflexivity|]. unfold value. simpl. now rewrite Er, Ec.
Qed.

End Shape.

(** ** Traits *)
Section Traits.

Context {Dynamic_marker : DynamicMarker}.
Variable HereditaryBits : Z.
Variables MatrixType_traits _MatrixTypeNested_traits : ei_traits.
Variables RowFactor ColFactor : Z.

Let traits : ei_traits :=
  ei_traits_Replicate HereditaryBits MatrixType_traits _MatrixTypeNested_traits
    RowFactor ColFactor.

(** C6.  The compile-time row count of the node is the dynamic marker when
    the row factor or the source's compile-time row count is the dynamic
    marker, and the product of the two otherwise; the same for columns. *)
Theorem ei_traits_Replicate_sizes :
  (RowFactor = Dynamic \/ RowsAtCompileTime MatrixType_traits = Dynamic ->
   RowsAtCompileTime traits = Dynamic) /\
  (RowFactor <> Dynamic /\ RowsAtCompileTime MatrixType_traits <> Dynamic ->
   RowsAtCompileTime traits = RowFactor * RowsAtCompileTime MatrixType_traits) /\
  (ColFactor = Dynamic \/ ColsAtCompileTime MatrixType_traits = Dynamic ->
   ColsAtCompileTime traits = Dynamic) /\
  (ColFactor <> Dynamic /\ ColsAtCompileTime MatrixType_traits <> Dynamic ->
   ColsAtCompileTime traits = ColFactor * ColsAtCompileTime MatrixType_traits).
Proof.
  unfold traits, ei_traits_Replicate. simpl.
  repeat split.
  - intros [E | E]; apply Z.eqb_eq in E; rewrite E; simpl;
      [reflexivity | now rewrite orb_true_r].
  - intros [E1 E2]. apply Z.eqb_neq in E1, E2. now rewrite E1, E2.
  - intros [E | E]; apply Z.eqb_eq in E; rewrite E; simpl;
      [reflexivity | now rewrite orb_true_r].
  - intros [E1 E2]. apply Z.eqb_neq in E1, E2. now rewrite E1, E2.
Qed.

(** C7.  The flags of the node are the flags of the stored source masked
    with the hereditary bits: a bit is set in the node's flags exactly when
    it is set in the source's flags and is a hereditary bit.  The read cost
    of the node is the read cost of the stored source. *)
Theorem ei_traits_Replicate_flags_cost :
  Flags traits = Z.land (Flags _MatrixTypeNested_traits) HereditaryBits /\
  (forall bit : Z,
     Z.testbit (Flags traits) bit
     = Z.testbit (Flags _MatrixTypeNested_traits) bit
       && Z.testbit HereditaryBits bit) /\
  CoeffReadCost traits = CoeffReadCost _MatrixTypeNested_traits.
Proof.
  unfold traits, ei_traits_Replicate. simpl.
  split; [reflexivity|]. split; [|reflexivity].
  intros bit. apply Z.land_spec.
Qed.

End Traits.

(** ** Element access away from the fast paths *)
Section GeneralPath.

Context {Scalar : Type} {Dynamic_marker : DynamicMarker}.
Context {MatrixType : Type} {source : DenseCoeffs Scalar MatrixType}.

(** On a node whose compile-time factors are both different from 1, [coeff]
    returns the source element at [(row mod R, col mod C)] for every valid
    index. *)
Lemma Replicate_coeff_contract_general_path {RowFactor ColFactor : Z}
    (x : Replicate MatrixType RowFactor ColFactor) (row col : Z) :
  RowFactor <> 1 -> ColFactor <> 1 ->
  0 <= rows (m_matrix x) -> 0 <= cols (m_matrix x) ->
  valid_index x row col ->
  coeff x row col = coeff_contract x row col.
Proof.
  intros Hr Hc HR HC Hv.
  rewrite Replicate_coeff_general by assumption.
  now apply coeff_general_case_contract.
Qed.

Context {RF1 CF1 RF2 CF2 RF3 CF3 : Z}.

(** C8, amended.  Let [outer] replicate the node [inner], which replicates
    the source [M] (R rows, C columns) by positive factors [(rf1, cf1)], by
    positive factors [(rf2, cf2)], and let [single] replicate [M] by
    [(rf1 * rf2, cf1 * cf2)].  When no compile-time factor of the three nodes
    is 1, and [R * rf1 * rf2] and [C * cf1 * cf2] do not exceed the largest
    [int], the two views have the same row and column counts and the same
    element at every valid index. *)
Theorem nested_replicate_general_path
    (outer : Replicate (Replicate MatrixType RF1 CF1) RF2 CF2)
    (single : Replicate MatrixType RF3 CF3) (row col : Z) :
  let inner := m_matrix outer in
  let M := m_matrix inner in
  let rf1 := value (m_rowFactor inner) in
  let cf1 := value (m_colFactor inner) in
  let rf2 := value (m_rowFactor outer) in
  let cf2 := value (m_colFactor outer) in
  m_matrix single = M ->
  value (m_rowFactor single) = rf1 * rf2 ->
  value (m_colFactor single) = cf1 * cf2 ->
  RF1 <> 1 -> CF1 <> 1 -> RF2 <> 1 -> CF2 <> 1 -> RF3 <> 1 -> CF3 <> 1 ->
  0 <= rows M -> 0 <= cols M ->
  0 < rf1 -> 0 < cf1 -> 0 < rf2 -> 0 < cf2 ->
  rows M * rf1 * rf2 <= Int.max_int ->
  cols M * cf1 * cf2 <= Int.max_int ->
  valid_index outer row col ->
  rows outer = rows single /\ cols outer = cols single /\
  coeff outer row col = coeff single row col.
Proof.
  intros inner M rf1 cf1 rf2 cf2 HM Hrf Hcf n1 n2 n3 n4 n5 n6
         HR HC p1 p2 p3 p4 Br Bc Hv.
  assert (Lr : 0 <= rows M * rf1 <= rows M * rf1 * rf2) by nia.
  assert (Lc : 0 <= cols M * cf1 <= cols M * cf1 * cf2) by nia.
  assert (Ri : rows inner = rows M * rf1).
  { apply Replicate_rows_exact. unfold Int.in_range, Int.min_int.
    fold inner M rf1. lia. }
  assert (Ci : cols inner = cols M * cf1).
  { apply Replicate_cols_exact. unfold Int.in_range, Int.min_int.
    fold inner M cf1. lia. }
  assert (Ro : rows outer = rows M * rf1 * rf2).
  { rewrite Replicate_rows_exact; fold inner rf2; rewrite Ri; [reflexivity|].
    unfold Int.in_range, Int.min_int. lia. }
  assert (Co : cols outer = cols M * cf1 * cf2).
  { rewrite Replicate_cols_exact; fold inner cf2; rewrite Ci; [reflexivity|].
    unfold Int.in_range, Int.min_int. lia. }
  assert (Rs : rows single = rows M * rf1 * rf2).
  { rewrite Replicate_rows_exact; rewrite HM, Hrf; [lia|].
    unfold Int.in_range, Int.min_int. lia. }
  assert (Cs : cols single = cols M * cf1 * cf2).
  { rewrite Replicate_cols_exact; rewrite HM, Hcf; [lia|].
    unfold Int.in_range, Int.min_int. lia. }
  split; [congruence|]. split; [congruence|].
  destruct Hv as [Hrow Hcol]. rewrite Ro in Hrow. rewrite Co in Hcol.
  assert (HR' : 0 < rows M) by nia.
  assert (HC' : 0 < cols M) by nia.
  assert (mr : 0 <= row mod (rows M * rf1) < rows M * rf1)
    by (apply Z.mod_pos_bound; nia).
  assert (mc : 0 <= col mod (cols M * cf1) < cols M * cf1)
    by (apply Z.mod_pos_bound; nia).
  rewrite (Replicate_coeff_general outer) by assumption.
  unfold coeff_general_case. fold inner. rewrite Ri, Ci.
  rewrite (IntFacts.rem_defined row) by lia.
  rewrite (IntFacts.rem_defined col) by lia.
  cbv beta iota delta [bind].
  rewrite (Replicate_coeff_general inner) by assumption.
  rewrite (Replicate_coeff_general single) by assumption.
  unfold coeff_general_case. rewrite HM. fold M.
  rewrite !IntFacts.rem_defined by lia.
  cbv beta iota delta [bind].
  now rewrite !IntFacts.mod_of_multiple by lia.
Qed.

End GeneralPath.

(** ** Observations leave the node and the memory as they were *)
Section Purity.

Context {Scalar : Type} {Dynamic_marker : DynamicMarker} {World : Type}.
Context {MatrixType : Type} {source : DenseCoeffsST Scalar World MatrixType}.
Context {RowFactor ColFactor : Z}.

Implicit Type x : Replicate MatrixType RowFactor ColFactor.

Hypothesis source_is_const : const_source MatrixType.

Lemma rowsST_const (m : MatrixType) (w : World) :
  rowsST m w = (fst (rowsST m w), w).
Proof.
  destruct source_is_const as (Hr & _ & _).
  rewrite <- (Hr m w) at 3. apply surjective_pairing.
Qed.

Lemma colsST_const (m : MatrixType) (w : World) :
  colsST m w = (fst (colsST m w), w).
Proof.
  destruct source_is_const as (_ & Hc & _).
  rewrite <- (Hc m w) at 3. apply surjective_pairing.
Qed.

Lemma coeffST_const (m : MatrixType) (row col : Z) (w : World) :
  coeffST m row col w = (fst (coeffST m row col w), w).
Proof.
  destruct source_is_const as (_ & _ & Hk).
  rewrite <- (Hk m row col w) at 3. apply surjective_pairing.
Qed.

(** Each member function returns what the member of the pure embedding
    returns on the source as it is read in the current memory, and hands
    back the node and the memory unchanged. *)
Lemma Replicate_rowsST_run x (w : World) :
  Replicate_rowsST (x, w) = (Replicate_rows (H := observe w) x, (x, w)).
Proof.
  unfold Replicate_rowsST, bindST, member, call, ret. simpl.
  rewrite rowsST_const. reflexivity.
Qed.

Lemma Replicate_colsST_run x (w : World) :
  Replicate_colsST (x, w) = (Replicate_cols (H := observe w) x, (x, w)).
Proof.
  unfold Replicate_colsST, bindST, member, call, ret. simpl.
  rewrite colsST_const. reflexivity.
Qed.

Lemma Replicate_coeffST_run x (row col : Z) (w : World) :
  Replicate_coeffST row col (x, w)
  = (Replicate_coeff (H := observe w) x row col, (x, w)).
Proof.
  unfold Replicate_coeffST, Replicate_coeff, bindST, member, call, ret.
  simpl.
  destruct (RowFactor =? 1); [|destruct (ColFactor =? 1)];
    rewrite rowsST_const, colsST_const; simpl.
  - destruct (Int.rem col _); simpl; [|reflexivity].
    now rewrite coeffST_const.
  - destruct (Int.rem row _); simpl; [|reflexivity].
    now rewrite coeffST_const.
  - destruct (Int.rem row _); simpl; [|reflexivity].
    destruct (Int.rem col _); simpl; [|reflexivity].
    now rewrite coeffST_const.
Qed.

(** C10.  Over a source whose accessors are [const], an evaluation of
    [coeff(row, col)], of [rows()] or of [cols()] leaves the node and the
    memory of the source as they were, and a second evaluation returns the
    value of the first. *)
Theorem Replicate_observations_pure x (w : World) (row col : Z) :
  let s := (x, w) in
  (snd (Replicate_coeffST row col s) = s /\
   fst (Replicate_coeffST row col (snd (Replicate_coeffST row col s)))
   = fst (Replicate_coeffST row col s)) /\
  (snd (Replicate_rowsST s) = s /\
   fst (Replicate_rowsST (snd (Replicate_rowsST s))) = fst (Replicate_rowsST s)) /\
  (snd (Replicate_colsST s) = s /\
   fst (Replicate_colsST (snd (Replicate_colsST s))) = fst (Replicate_colsST s)).
Proof.
  intros s. unfold s.
  rewrite Replicate_coeffST_run, Replicate_rowsST_run, Replicate_colsST_run.
  simpl.
  rewrite Replicate_coeffST_run, Replicate_rowsST_run, Replicate_colsST_run.
  simpl. repeat split.
Qed.

End Purity.

(** ** The scenarios *)

Ltac each_Dynamic :=
  unfold Dynamic_values; repeat apply Forall_cons; try apply Forall_nil.

Ltac evaluate :=
  vm_compute; repeat split; try reflexivity; try discriminate.

Ltac build_then_evaluate :=
  eexists; split; [vm_compute; reflexivity | evaluate].

(** The first scenario of the spec: [[1,2],[3,4]] replicated by the
    compile-time factors (2,3) is 4 by 6 and its element (3,5) is 4. *)
Lemma replicate_2_3_scenario :
  Forall (fun D : DynamicMarker =>
    exists x : Replicate (Matrix Z) 2 3,
      replicate_fixed 2 3 M22 = Some x /\
      rows x = 4 /\ cols x = 6 /\ coeff x 3 5 = Some 4) Dynamic_values.
Proof. each_Dynamic; build_then_evaluate. Qed.

(** With run-time factors (1,1) the view reads [[1,2],[3,4]] back. *)
Lemma replicate_runtime_1_1_scenario :
  Forall (fun D : DynamicMarker =>
    map (fun rc => coeff (replicate M22 1 1) (fst rc) (snd rc))
        [(0, 0); (0, 1); (1, 0); (1, 1)]
    = [Some 1; Some 2; Some 3; Some 4]) Dynamic_values.
Proof. each_Dynamic; evaluate. Qed.

(** C1, at [M = [[1,2],[3,4]]], the node [M.replicate<1,3>()] (2 by 6) and
    the valid index (1,5): the accessor asks the source for the element at
    row [M.rows() = 2], which is outside the source, and has no value, where
    the contract gives [M.coeff(1 mod 2, 5 mod 2) = 4]. *)
Theorem coeff_row_factor_one_reads_outside_source :
  Forall (fun D : DynamicMarker =>
    exists x : Replicate (Matrix Z) 1 3,
      replicate_fixed 1 3 M22 = Some x /\
      valid_index x 1 5 /\
      coeff x 1 5 = coeff M22 (rows M22) (5 mod cols M22) /\
      coeff x 1 5 = None /\
      coeff_contract x 1 5 = Some 4) Dynamic_values.
Proof. each_Dynamic; build_then_evaluate. Qed.

(** C2, at [M = [[1,2],[3,4]]] and the node [M.replicate<1,1>()]: the view
    is 2 by 2 and none of its four elements has a value, where the source
    has the elements 1, 2, 3, 4. *)
Theorem replicate_fixed_1_1_not_identity :
  Forall (fun D : DynamicMarker =>
    exists x : Replicate (Matrix Z) 1 1,
      replicate_fixed 1 1 M22 = Some x /\
      rows x = 2 /\ cols x = 2 /\
      map (fun rc => coeff x (fst rc) (snd rc))
          [(0, 0); (0, 1); (1, 0); (1, 1)]
      = [None; None; None; None] /\
      map (fun rc => coeff M22 (fst rc) (snd rc))
          [(0, 0); (0, 1); (1, 0); (1, 1)]
      = [Some 1; Some 2; Some 3; Some 4]) Dynamic_values.
Proof. each_Dynamic; build_then_evaluate. Qed.

(** C3 as stated fails: for the 2 by 2 source and the factors (2^30, 1) the
    product 2 * 2^30 is not an [int], and [rows()] is not 2^31. *)
Lemma rows_cols_claim_counterexample :
  Forall (fun D : DynamicMarker => ~ rows_cols_claim D) Dynamic_values.
Proof.
  each_Dynamic; intros H;
    destruct (H M22 (2 ^ 30) 1) as [Hr _]; try reflexivity;
    vm_compute in Hr; discriminate Hr.
Qed.

(** C4, at [M = [[1,2],[3,4]]]: on [M.replicate<1,3>()] at the valid index
    (1,5) the branch for a row factor of 1 has no value, and on
    [M.replicate<3,1>()] at the valid index (5,1) the branch for a column
    factor of 1 has no value; the general case gives 4 at both. *)
Theorem fast_paths_differ_from_general_case :
  Forall (fun D : DynamicMarker =>
    (exists x : Replicate (Matrix Z) 1 3,
       replicate_fixed 1 3 M22 = Some x /\
       valid_index x 1 5 /\
       coeff x 1 5 = None /\ coeff_general_case x 1 5 = Some 4) /\
    (exists y : Replicate (Matrix Z) 3 1,
       replicate_fixed 3 1 M22 = Some y /\
       valid_index y 5 1 /\
       coeff y 5 1 = coeff M22 (5 mod rows M22) (cols M22) /\
       coeff y 5 1 = None /\ coeff_general_case y 5 1 = Some 4))
    Dynamic_values.
Proof. each_Dynamic; split; build_then_evaluate. Qed.

(** C8 as stated fails: over the column vector [0,1,2,3,4], with the factors
    (858993460, 1) then (2, 1), the inner view has 5 * 858993460 = 2^32 + 4
    rows, which [rows()] reports as 4.  Both views report 8 rows; at the
    valid index (4,0) the nested view reads the source row (4 mod 4) mod 5 = 0
    and the single view the source row 4 mod 5 = 4. *)
Lemma nested_replicate_claim_counterexample :
  Forall (fun D : DynamicMarker => ~ nested_replicate_claim D) Dynamic_values.
Proof.
  each_Dynamic; intros H;
    specialize (H col5 858993460 1 2 1 4 0);
    vm_compute in H;
    assert (E : Some 0 = Some 4)
      by (apply H; try reflexivity; split; split; (discriminate || reflexivity));
    discriminate E.
Qed.

(** C9, for the row vector [5,6,7] and the vertical single-axis factory with
    factor 4, which builds [Replicate<ExpressionType,Dynamic,1>] with the
    factors (4,1): the view is 4 by 3, and at each of its twelve indices the
    accessor asks the source for column [cols() = 3] and has no value, where
    row 0 of the source reads 5, 6, 7. *)
Theorem vertical_replicate_of_row_vector_has_no_element :
  Forall (fun D : DynamicMarker =>
    let x := VectorwiseOp_replicate (mk_VectorwiseOp Vertical row567) 4 in
    m_matrix x = row567 /\
    value (m_rowFactor x) = 4 /\ value (m_colFactor x) = 1 /\
    rows x = 4 /\ cols x = 3 /\
    map (fun rc => coeff x (fst rc) (snd rc))
        (list_prod [0; 1; 2; 3] [0; 1; 2])
    = repeat None 12 /\
    map (coeff row567 0) [0; 1; 2] = [Some 5; Some 6; Some 7])
    Dynamic_values.
Proof. each_Dynamic; evaluate. Qed.

(** ** The theorems at concrete inputs *)

(** [[1,2],[3,4]] replicated by (2,3), whose products 4 and 6 are
    representable. *)
Lemma Replicate_rows_cols_representable_witness :
  let D : DynamicMarker := 10000 in
  (Int.in_range (2 * rows M22) /\ Int.in_range (3 * cols M22)) /\
  (rows (replicate M22 2 3) = 2 * rows M22 /\
   cols (replicate M22 2 3) = 3 * cols M22) /\
  (forall x : Replicate (Matrix Z) 2 3,
     replicate_fixed 2 3 M22 = Some x ->
     rows x = 2 * rows M22 /\ cols x = 3 * cols M22).
Proof.
  intros D.
  assert (Hr : Int.in_range (2 * rows M22))
    by (unfold Int.in_range, Int.min_int, Int.max_int; simpl; lia).
  assert (Hc : Int.in_range (3 * cols M22))
    by (unfold Int.in_range, Int.min_int, Int.max_int; simpl; lia).
  split; [split; assumption|].
  exact (Replicate_rows_cols_representable M22 2 3 Hr Hc).
Defined.

(** A dynamic row factor is rejected; the fixed factors (2,3) are accepted. *)
Lemma Replicate_fixed_assertion_witness :
  let D : DynamicMarker := 10000 in
  Replicate_fixed Dynamic 3 M22 = None /\
  exists x : Replicate (Matrix Z) 2 3,
    Replicate_fixed 2 3 M22 = Some x /\
    m_matrix x = M22 /\
    value (m_rowFactor x) = 2 /\ value (m_colFactor x) = 3.
Proof.
  intros D. split.
  - apply (proj1 (Replicate_fixed_assertion Dynamic 3 M22)).
    left. reflexivity.
  - apply (proj2 (Replicate_fixed_assertion 2 3 M22)).
    split; discriminate.
Defined.

(** A dynamic row factor over 2 fixed rows, a column factor 3 over 2 fixed
    columns. *)
Lemma ei_traits_Replicate_sizes_witness :
  let D : DynamicMarker := 10000 in
  let M := {| RowsAtCompileTime := 2; ColsAtCompileTime := 2;
              MaxRowsAtCompileTime := 2; MaxColsAtCompileTime := 2;
              Flags := 5; CoeffReadCost := 1 |} in
  RowsAtCompileTime (ei_traits_Replicate 7 M M Dynamic 3) = Dynamic /\
  ColsAtCompileTime (ei_traits_Replicate 7 M M Dynamic 3) = 3 * 2.
Proof.
  intros D M.
  destruct (ei_traits_Replicate_sizes 7 M M Dynamic 3) as (Hdyn & _ & _ & Hfix).
  split.
  - apply Hdyn. left. reflexivity.
  - apply Hfix. split; discriminate.
Defined.

(** [[1,2],[3,4]] replicated by (2,3) and then by (2,2) against a single
    replication by (4,6), at the last index (7,11) of the 8 by 12 view. *)
Lemma nested_replicate_general_path_witness :
  let D : DynamicMarker := 10000 in
  let outer := replicate (replicate M22 2 3) 2 2 in
  let single := replicate M22 (2 * 2) (3 * 2) in
  valid_index outer 7 11 /\
  rows outer = rows single /\ cols outer = cols single /\
  coeff outer 7 11 = coeff single 7 11.
Proof.
  intros D outer single.
  assert (Hv : valid_index outer 7 11) by evaluate.
  split; [exact Hv|].
  apply (nested_replicate_general_path outer single 7 11);
    try reflexivity; try discriminate; try exact Hv.
Defined.

(** The node with factors (2,3) over [[1,2],[3,4]] kept in memory. *)
Lemma Replicate_observations_pure_witness :
  let D : DynamicMarker := 10000 in
  let x : Replicate unit 2 3 :=
    mk_Replicate tt (mk_int_if_dynamic 2) (mk_int_if_dynamic 3) in
  let s := (x, M22) in
  const_source (Scalar := Z) (World := Matrix Z) unit /\
  Replicate_coeffST 3 5 s = (Some 4, s) /\
  (snd (Replicate_coeffST 3 5 s) = s /\
   fst (Replicate_coeffST 3 5 (snd (Replicate_coeffST 3 5 s)))
   = fst (Replicate_coeffST 3 5 s)) /\
  (snd (Replicate_rowsST s) = s /\
   fst (Replicate_rowsST (snd (Replicate_rowsST s))) = fst (Replicate_rowsST s)) /\
  (snd (Replicate_colsST s) = s /\
   fst (Replicate_colsST (snd (Replicate_colsST s))) = fst (Replicate_colsST s)).
Proof.
  intros D x s.
  assert (Hc : const_source (Scalar := Z) (World := Matrix Z) unit)
    by (repeat split).
  split; [exact Hc|]. split; [reflexivity|].
  exact (Replicate_observations_pure Hc x M22 3 5).
Defined.

(** ** Further properties of the element accessor *)
Section Accessor.

Context {Scalar : Type} {Dynamic_marker : DynamicMarker}.
Context {MatrixType : Type} {source : DenseCoeffs Scalar MatrixType}.
Context {RowFactor ColFactor : Z}.

(** X1.  [Replicate::coeff] checks no bound of its own: on a node whose
    compile-time factors are both different from 1, over a source with R > 0
    rows and C > 0 columns, [coeff(row, col)] at any non-negative index, also
    one beyond [rows()] or [cols()], is the source element at
    [(row mod R, col mod C)], and that index lies inside the source. *)
Theorem coeff_general_path_any_nonnegative_index
    (x : Replicate MatrixType RowFactor ColFactor) (row col : Z) :
  RowFactor <> 1 -> ColFactor <> 1 ->
  0 < rows (m_matrix x) -> 0 < cols (m_matrix x) ->
  0 <= row -> 0 <= col ->
  coeff x row col
  = coeff (m_matrix x) (row mod rows (m_matrix x)) (col mod cols (m_matrix x)) /\
  0 <= row mod rows (m_matrix x) < rows (m_matrix x) /\
  0 <= col mod cols (m_matrix x) < cols (m_matrix x).
Proof.
  intros Nr Nc HR HC Hrow Hcol. split.
  - rewrite Replicate_coeff_general by assumption.
    unfold coeff_general_case.
    now rewrite !IntFacts.rem_defined by assumption.
  - split; apply Z.mod_pos_bound; assumption.
Qed.

(** X2.  The view is periodic on every branch of [coeff]: over a source
    with R > 0 rows and C > 0 columns, moving a non-negative index by whole
    multiples of R down and of C to the right does not change what
    [coeff] returns. *)
Theorem coeff_periodic
    (x : Replicate MatrixType RowFactor ColFactor) (row col k l : Z) :
  0 < rows (m_matrix x) -> 0 < cols (m_matrix x) ->
  0 <= row -> 0 <= col -> 0 <= k -> 0 <= l ->
  coeff x (row + k * rows (m_matrix x)) (col + l * cols (m_matrix x))
  = coeff x row col.
Proof.
  intros HR HC Hrow Hcol Hk Hl. simpl. unfold Replicate_coeff.
  assert (Er : Int.rem (row + k * rows (m_matrix x)) (rows (m_matrix x))
               = Int.rem row (rows (m_matrix x))).
  { rewrite !IntFacts.rem_defined by nia. now rewrite Z.mod_add by lia. }
  assert (Ec : Int.rem (col + l * cols (m_matrix x)) (cols (m_matrix x))
               = Int.rem col (cols (m_matrix x))).
  { rewrite !IntFacts.rem_defined by nia. now rewrite Z.mod_add by lia. }
  now rewrite Er, Ec.
Qed.

(** X3.  What the two fast paths do not read: on a node whose compile-time
    row factor is 1 the result of [coeff] is the same for every [row]; on a
    node whose compile-time column factor is 1 (and row factor is not) it is
    the same for every [col]. *)
Theorem coeff_fast_paths_ignore_index
    (x : Replicate MatrixType RowFactor ColFactor) (row row' col col' : Z) :
  (RowFactor = 1 -> coeff x row col = coeff x row' col) /\
  (RowFactor <> 1 /\ ColFactor = 1 -> coeff x row col = coeff x row col').
Proof.
  split.
  - intros E. now rewrite !Replicate_coeff_row_factor_one by assumption.
  - intros [N E]. now rewrite !Replicate_coeff_col_factor_one by assumption.
Qed.

(** X4.  Empty source: when the source has no rows or no columns, a node
    away from the fast paths reports no rows or no columns, no index is
    valid, and [coeff] has no value at any index (the remainder by zero is
    undefined). *)
Theorem empty_source_has_no_element
    (x : Replicate MatrixType RowFactor ColFactor) (row col : Z) :
  rows (m_matrix x) = 0 \/ cols (m_matrix x) = 0 ->
  RowFactor <> 1 -> ColFactor <> 1 ->
  (rows x = 0 \/ cols x = 0) /\
  ~ valid_index x row col /\
  coeff x row col = None.
Proof.
  intros He Nr Nc.
  assert (Hs : rows x = 0 \/ cols x = 0).
  { simpl. unfold Replicate_rows, Replicate_cols.
    destruct He as [E | E]; rewrite E; [left | right]; reflexivity. }
  split; [exact Hs|]. split.
  - intros [Hr Hc]. destruct Hs as [E | E]; rewrite E in *; lia.
  - rewrite Replicate_coeff_general by assumption.
    unfold coeff_general_case, Int.rem.
    destruct He as [E | E]; rewrite E; simpl; [reflexivity|].
    now destruct (_ || _).
Qed.

(** X5.  The view returns nothing of its own: whatever branch is taken,
    a value returned by [coeff] is a value the source returns at some
    index. *)
Theorem coeff_value_is_source_value
    (x : Replicate MatrixType RowFactor ColFactor) (row col : Z) (v : Scalar) :
  coeff x row col = Some v ->
  exists r c : Z, coeff (m_matrix x) r c = Some v.
Proof.
  simpl. unfold Replicate_coeff.
  destruct (RowFactor =? 1); [|destruct (ColFactor =? 1)].
  - destruct (Int.rem col _) as [c|]; simpl; [eauto | discriminate].
  - destruct (Int.rem row _) as [r|]; simpl; [eauto | discriminate].
  - destruct (Int.rem row _) as [r|]; simpl; [|discriminate].
    destruct (Int.rem col _) as [c|]; simpl; [eauto | discriminate].
Qed.

(** X6.  Negative indices are not wrapped around: [%] truncates, so for a
    negative [row] whose remainder by the source's row count is not zero (or
    such a [col]), a node away from the fast paths asks the source for a
    negative index, and over a source that checks its indices [coeff] has no
    value. *)
Theorem coeff_negative_index_no_value
    (x : Replicate MatrixType RowFactor ColFactor) (row col : Z) :
  checked_source MatrixType ->
  RowFactor <> 1 -> ColFactor <> 1 ->
  (row < 0 /\ Z.rem row (rows (m_matrix x)) <> 0) \/
  (col < 0 /\ Z.rem col (cols (m_matrix x)) <> 0) ->
  coeff x row col = None.
Proof.
  intros Hck Nr Nc Hneg.
  rewrite Replicate_coeff_general by assumption.
  unfold coeff_general_case, Int.rem.
  destruct ((rows (m_matrix x) =? 0) || _) eqn:Gr; [reflexivity|].
  destruct ((cols (m_matrix x) =? 0) || _) eqn:Gc; [reflexivity|].
  simpl.
  apply orb_false_iff in Gr, Gc.
  destruct Gr as [Gr _]. destruct Gc as [Gc _].
  apply Z.eqb_neq in Gr, Gc.
  destruct (coeff (m_matrix x) _ _) as [v|] eqn:Ev; [|reflexivity].
  destruct (Hck _ _ _ ltac:(rewrite Ev; discriminate)) as [Hr Hc].
  exfalso. destruct Hneg as [[Hn Hz] | [Hn Hz]].
  - pose proof (Z.rem_nonpos row (rows (m_matrix x)) Gr ltac:(lia)). lia.
  - pose proof (Z.rem_nonpos col (cols (m_matrix x)) Gc ltac:(lia)). lia.
Qed.

End Accessor.

(** ** Further properties of the factory functions *)
Section Factories.

Context {Scalar : Type} {Dynamic_marker : DynamicMarker}.
Context {ExpressionType : Type} {source : DenseCoeffs Scalar ExpressionType}.

(** What [value()] returns for the two kinds of factor the single-axis
    factory uses. *)
Lemma value_of_dynamic (f : ei_int_if_dynamic Dynamic) : value f = m_value f.
Proof. unfold value. now rewrite Z.eqb_refl. Qed.

Lemma value_of_one (f : ei_int_if_dynamic 1) : m_value f = 1 -> value f = 1.
Proof. unfold value. intros E. now destruct (1 =? Dynamic). Qed.

(** X7.  Shape of the single-axis replicate: for an expression with R rows
    and C columns, the vertical factory gives [factor * R] rows and C
    columns, the horizontal one R rows and [factor * C] columns, whenever
    the replicated size is representable as an [int]. *)
Theorem VectorwiseOp_replicate_shape (Direction : DirectionType)
    (v : VectorwiseOp ExpressionType Direction) (factor : Z) :
  Int.in_range (rows (_expression v)) ->
  Int.in_range (cols (_expression v)) ->
  Int.in_range
    (factor * (if DirectionType_eqb Direction Vertical
               then rows (_expression v) else cols (_expression v))) ->
  rows (VectorwiseOp_replicate v factor)
  = (if DirectionType_eqb Direction Vertical then factor else 1)
    * rows (_expression v) /\
  cols (VectorwiseOp_replicate v factor)
  = (if DirectionType_eqb Direction Horizontal then factor else 1)
    * cols (_expression v).
Proof.
  intros HR HC HF.
  destruct Direction.
  - change (Int.mul (rows (_expression v))
              (value (Value := Dynamic) (mk_int_if_dynamic factor))
            = factor * rows (_expression v) /\
            Int.mul (cols (_expression v))
              (value (Value := 1) (mk_int_if_dynamic 1))
            = 1 * cols (_expression v)).
    rewrite value_of_dynamic, value_of_one by reflexivity.
    change (Int.in_range (factor * rows (_expression v))) in HF.
    rewrite !IntFacts.mul_exact; rewrite ?Z.mul_1_r;
      try assumption; try (rewrite Z.mul_comm; assumption).
    split; [apply Z.mul_comm | symmetry; apply Z.mul_1_l].
  - change (Int.mul (rows (_expression v))
              (value (Value := 1) (mk_int_if_dynamic 1))
            = 1 * rows (_expression v) /\
            Int.mul (cols (_expression v))
              (value (Value := Dynamic) (mk_int_if_dynamic factor))
            = factor * cols (_expression v)).
    rewrite value_of_dynamic, value_of_one by reflexivity.
    change (Int.in_range (factor * cols (_expression v))) in HF.
    rewrite !IntFacts.mul_exact; rewrite ?Z.mul_1_r;
      try assumption; try (rewrite Z.mul_comm; assumption).
    split; [symmetry; apply Z.mul_1_l | apply Z.mul_comm].
Qed.

(** X8.  Every node built by the single-axis factory has one compile-time
    factor equal to 1, so it always reads through a fast path: over a source
    that checks its indices, [coeff] has no value at any index, for either
    direction and any factor. *)
Theorem VectorwiseOp_replicate_has_no_element (Direction : DirectionType)
    (v : VectorwiseOp ExpressionType Direction) (factor row col : Z) :
  checked_source ExpressionType ->
  coeff (VectorwiseOp_replicate v factor) row col = None.
Proof.
  intros Hck.
  destruct Direction; apply fast_paths_have_no_value; try assumption;
    [right | left]; reflexivity.
Qed.

(** X9.  The run-time factory meets the contract of the accessor: provided
    the dynamic marker is not 1, [replicate(rowFactor, colFactor)] of a
    source with R rows and C columns returns, at every valid index, the
    source element at [(row mod R, col mod C)]. *)
Theorem replicate_runtime_meets_contract (m : ExpressionType)
    (rowFactor colFactor row col : Z) :
  Dynamic <> 1 ->
  0 <= rows m -> 0 <= cols m ->
  valid_index (replicate m rowFactor colFactor) row col ->
  coeff (replicate m rowFactor colFactor) row col
  = coeff m (row mod rows m) (col mod cols m).
Proof.
  intros Hd HR HC Hv.
  now rewrite Replicate_coeff_contract_general_path.
Qed.

(** X10.  Identity of the run-time factory: provided the dynamic marker is
    not 1, [replicate(1, 1)] of a source has the row and column counts of
    the source and, at every index inside the source, the element of the
    source. *)
Theorem replicate_runtime_1_1_identity (m : ExpressionType) (row col : Z) :
  Dynamic <> 1 ->
  Int.in_range (rows m) -> Int.in_range (cols m) ->
  0 <= row < rows m -> 0 <= col < cols m ->
  rows (replicate m 1 1) = rows m /\
  cols (replicate m 1 1) = cols m /\
  coeff (replicate m 1 1) row col = coeff m row col.
Proof.
  intros Hd HR HC Hrow Hcol.
  assert (Er : rows (replicate m 1 1) = rows m).
  { rewrite Replicate_rows_exact; simpl; unfold value; rewrite Z.eqb_refl;
      simpl; rewrite Z.mul_1_r; [reflexivity | assumption]. }
  assert (Ec : cols (replicate m 1 1) = cols m).
  { rewrite Replicate_cols_exact; simpl; unfold value; rewrite Z.eqb_refl;
      simpl; rewrite Z.mul_1_r; [reflexivity | assumption]. }
  split; [exact Er|]. split; [exact Ec|].
  rewrite Replicate_coeff_contract_general_path; try assumption.
  - unfold coeff_contract. simpl. now rewrite !Z.mod_small by lia.
  - simpl. lia.
  - simpl. lia.
  - split; [rewrite Er | rewrite Ec]; assumption.
Qed.

End Factories.

(** ** Further properties of the traits *)
Section TraitsComposition.

Context {Dynamic_marker : DynamicMarker}.
Variable HereditaryBits : Z.

(** X11.  When the node's compile-time size is the dynamic marker: exactly
    when the factor is dynamic, or the source's compile-time size is
    dynamic, or their product happens to equal the marker; a fixed factor
    over a fixed size whose product is the value of [Dynamic] is therefore
    reported as dynamic. *)
Theorem ei_traits_Replicate_dynamic_iff
    (MatrixType_traits _MatrixTypeNested_traits : ei_traits)
    (RowFactor ColFactor : Z) :
  let traits :=
    ei_traits_Replicate HereditaryBits MatrixType_traits
      _MatrixTypeNested_traits RowFactor ColFactor in
  (RowsAtCompileTime traits = Dynamic <->
   RowFactor = Dynamic \/ RowsAtCompileTime MatrixType_traits = Dynamic \/
   RowFactor * RowsAtCompileTime MatrixType_traits = Dynamic) /\
  (ColsAtCompileTime traits = Dynamic <->
   ColFactor = Dynamic \/ ColsAtCompileTime MatrixType_traits = Dynamic \/
   ColFactor * ColsAtCompileTime MatrixType_traits = Dynamic).
Proof.
  intros traits. unfold traits, ei_traits_Replicate. simpl.
  split.
  - destruct (RowFactor =? Dynamic) eqn:E1; simpl.
    + apply Z.eqb_eq in E1. intuition congruence.
    + destruct (RowsAtCompileTime MatrixType_traits =? Dynamic) eqn:E2; simpl.
      * apply Z.eqb_eq in E2. intuition congruence.
      * apply Z.eqb_neq in E1, E2. intuition congruence.
  - destruct (ColFactor =? Dynamic) eqn:E1; simpl.
    + apply Z.eqb_eq in E1. intuition congruence.
    + destruct (ColsAtCompileTime MatrixType_traits =? Dynamic) eqn:E2; simpl.
      * apply Z.eqb_eq in E2. intuition congruence.
      * apply Z.eqb_neq in E1, E2. intuition congruence.
Qed.

(** X12.  Replicating a replication node adds nothing to the flags and the
    cost: the flags of an outer node whose stored source is an inner
    replication node are the flags of the inner node, and its read cost is
    the read cost of the innermost stored source, whatever the factors. *)
Theorem ei_traits_Replicate_nested_flags_cost
    (MatrixType_traits _MatrixTypeNested_traits outer_MatrixType_traits : ei_traits)
    (RowFactor1 ColFactor1 RowFactor2 ColFactor2 : Z) :
  let inner :=
    ei_traits_Replicate HereditaryBits MatrixType_traits
      _MatrixTypeNested_traits RowFactor1 ColFactor1 in
  let outer :=
    ei_traits_Replicate HereditaryBits outer_MatrixType_traits inner
      RowFactor2 ColFactor2 in
  Flags outer = Flags inner /\
  CoeffReadCost outer = CoeffReadCost _MatrixTypeNested_traits.
Proof.
  intros inner outer. unfold outer, inner, ei_traits_Replicate. simpl.
  split; [|reflexivity].
  now rewrite <- Z.land_assoc, Z.land_diag.
Qed.

Context {Scalar MatrixType : Type} {source : DenseCoeffs Scalar MatrixType}.

(** X13.  The compile-time size and the run-time size agree.  For a node
    with fixed (non-dynamic) factors over a source whose run-time row and
    column counts are its fixed compile-time counts, when the products are
    representable as an [int], [rows()] and [cols()] return the node's
    [RowsAtCompileTime] and [ColsAtCompileTime]. *)
Theorem Replicate_size_matches_traits
    (MatrixType_traits _MatrixTypeNested_traits : ei_traits)
    (RowFactor ColFactor : Z)
    (x : Replicate MatrixType RowFactor ColFactor) :
  let traits :=
    ei_traits_Replicate HereditaryBits MatrixType_traits
      _MatrixTypeNested_traits RowFactor ColFactor in
  RowFactor <> Dynamic -> ColFactor <> Dynamic ->
  RowsAtCompileTime MatrixType_traits <> Dynamic ->
  ColsAtCompileTime MatrixType_traits <> Dynamic ->
  rows (m_matrix x) = RowsAtCompileTime MatrixType_traits ->
  cols (m_matrix x) = ColsAtCompileTime MatrixType_traits ->
  Int.in_range (RowFactor * RowsAtCompileTime MatrixType_traits) ->
  Int.in_range (ColFactor * ColsAtCompileTime MatrixType_traits) ->
  rows x = RowsAtCompileTime traits /\ cols x = ColsAtCompileTime traits.
Proof.
  intros traits Nr Nc NR NC ER EC HR HC.
  unfold traits, ei_traits_Replicate. simpl.
  unfold Replicate_rows, Replicate_cols, value. rewrite ER, EC.
  apply Z.eqb_neq in Nr, Nc, NR, NC. rewrite Nr, Nc, NR, NC. simpl.
  rewrite !IntFacts.mul_exact by (rewrite Z.mul_comm; assumption).
  split; apply Z.mul_comm.
Qed.

End TraitsComposition.

(** ** The further properties at concrete inputs *)

Ltac by_evaluation :=
  try reflexivity; try discriminate;
  try (vm_compute; repeat split; (reflexivity || discriminate)).

(** The index (9,100) lies beyond the 4 by 6 view of [[1,2],[3,4]]. *)
Lemma coeff_general_path_any_nonnegative_index_witness :
  let D : DynamicMarker := 10000 in
  let x : Replicate (Matrix Z) 2 3 :=
    mk_Replicate M22 (mk_int_if_dynamic 2) (mk_int_if_dynamic 3) in
  coeff x 9 100 = Some 3 /\
  coeff x 9 100
  = coeff (m_matrix x) (9 mod rows (m_matrix x)) (100 mod cols (m_matrix x)) /\
  0 <= 9 mod rows (m_matrix x) < rows (m_matrix x) /\
  0 <= 100 mod cols (m_matrix x) < cols (m_matrix x).
Proof.
  intros D x. split; [reflexivity|].
  apply (coeff_general_path_any_nonnegative_index x 9 100); by_evaluation.
Defined.

(** Three tiles down and two tiles to the right of (1,1). *)
Lemma coeff_periodic_witness :
  let D : DynamicMarker := 10000 in
  let x : Replicate (Matrix Z) 2 3 :=
    mk_Replicate M22 (mk_int_if_dynamic 2) (mk_int_if_dynamic 3) in
  coeff x (1 + 3 * rows (m_matrix x)) (1 + 2 * cols (m_matrix x))
  = coeff x 1 1.
Proof.
  intros D x. apply (coeff_periodic x 1 1 3 2); by_evaluation.
Defined.

(** A node with the compile-time factors (1,3) at two rows, a node with
    (3,1) at two columns. *)
Lemma coeff_fast_paths_ignore_index_witness :
  let D : DynamicMarker := 10000 in
  let x : Replicate (Matrix Z) 1 3 :=
    mk_Replicate M22 (mk_int_if_dynamic 1) (mk_int_if_dynamic 3) in
  let y : Replicate (Matrix Z) 3 1 :=
    mk_Replicate M22 (mk_int_if_dynamic 3) (mk_int_if_dynamic 1) in
  coeff x 0 5 = coeff x 1 5 /\ coeff y 5 0 = coeff y 5 1.
Proof.
  intros D x y. split.
  - apply (proj1 (coeff_fast_paths_ignore_index x 0 1 5 5)). reflexivity.
  - apply (proj2 (coeff_fast_paths_ignore_index y 5 5 0 1)).
    split; by_evaluation.
Defined.

(** The matrix without rows. *)
Lemma empty_source_has_no_element_witness :
  let D : DynamicMarker := 10000 in
  let x : Replicate (Matrix Z) 2 3 :=
    mk_Replicate [] (mk_int_if_dynamic 2) (mk_int_if_dynamic 3) in
  (rows x = 0 \/ cols x = 0) /\ ~ valid_index x 0 0 /\ coeff x 0 0 = None.
Proof.
  intros D x.
  apply (empty_source_has_no_element x 0 0); by_evaluation.
  left. reflexivity.
Defined.

(** The element 4 read at (3,5). *)
Lemma coeff_value_is_source_value_witness :
  let D : DynamicMarker := 10000 in
  let x : Replicate (Matrix Z) 2 3 :=
    mk_Replicate M22 (mk_int_if_dynamic 2) (mk_int_if_dynamic 3) in
  coeff x 3 5 = Some 4 /\ exists r c : Z, coeff (m_matrix x) r c = Some 4.
Proof.
  intros D x. split; [reflexivity|].
  apply (coeff_value_is_source_value x 3 5 4). reflexivity.
Defined.

(** The row -1 over [[1,2],[3,4]]: [-1 % 2] is -1. *)
Lemma coeff_negative_index_no_value_witness :
  let D : DynamicMarker := 10000 in
  let x : Replicate (Matrix Z) 2 3 :=
    mk_Replicate M22 (mk_int_if_dynamic 2) (mk_int_if_dynamic 3) in
  Z.rem (-1) (rows (m_matrix x)) = -1 /\ coeff x (-1) 0 = None.
Proof.
  intros D x. split; [reflexivity|].
  apply (coeff_negative_index_no_value x (-1) 0);
    [apply Matrix_checked_source | discriminate | discriminate |].
  left. split; by_evaluation.
Defined.

(** The row vector [5,6,7] replicated four times downwards. *)
Lemma VectorwiseOp_replicate_shape_witness :
  let D : DynamicMarker := 10000 in
  let v := mk_VectorwiseOp Vertical row567 in
  rows (VectorwiseOp_replicate v 4) = 4 * rows row567 /\
  cols (VectorwiseOp_replicate v 4) = 1 * cols row567.
Proof.
  intros D v.
  apply (VectorwiseOp_replicate_shape Vertical v 4); by_evaluation.
Defined.

(** The row vector [5,6,7], replicated in either direction. *)
Lemma VectorwiseOp_replicate_has_no_element_witness :
  let D : DynamicMarker := 10000 in
  coeff (VectorwiseOp_replicate (mk_VectorwiseOp Vertical row567) 4) 3 2 = None /\
  coeff (VectorwiseOp_replicate (mk_VectorwiseOp Horizontal row567) 4) 0 11 = None.
Proof.
  intros D. split.
  - apply (VectorwiseOp_replicate_has_no_element Vertical
             (mk_VectorwiseOp Vertical row567) 4 3 2).
    apply Matrix_checked_source.
  - apply (VectorwiseOp_replicate_has_no_element Horizontal
             (mk_VectorwiseOp Horizontal row567) 4 0 11).
    apply Matrix_checked_source.
Defined.

(** [[1,2],[3,4]] replicated by the run-time factors (2,3), at (3,5). *)
Lemma replicate_runtime_meets_contract_witness :
  let D : DynamicMarker := 10000 in
  valid_index (replicate M22 2 3) 3 5 /\
  coeff (replicate M22 2 3) 3 5 = coeff M22 (3 mod rows M22) (5 mod cols M22).
Proof.
  intros D.
  assert (Hv : valid_index (replicate M22 2 3) 3 5) by by_evaluation.
  split; [exact Hv|].
  apply (replicate_runtime_meets_contract M22 2 3 3 5); by_evaluation.
Defined.

(** [[1,2],[3,4]] replicated by the run-time factors (1,1), at (1,1). *)
Lemma replicate_runtime_1_1_identity_witness :
  let D : DynamicMarker := 10000 in
  rows (replicate M22 1 1) = rows M22 /\
  cols (replicate M22 1 1) = cols M22 /\
  coeff (replicate M22 1 1) 1 1 = coeff M22 1 1.
Proof.
  intros D.
  apply (replicate_runtime_1_1_identity M22 1 1); by_evaluation.
Defined.

(** With [Dynamic] = 10000, the fixed factor 100 over 100 fixed rows is
    reported as dynamic. *)
Lemma ei_traits_Replicate_dynamic_iff_witness :
  let D : DynamicMarker := 10000 in
  let M := {| RowsAtCompileTime := 100; ColsAtCompileTime := 2;
              MaxRowsAtCompileTime := 100; MaxColsAtCompileTime := 2;
              Flags := 5; CoeffReadCost := 1 |} in
  RowsAtCompileTime (ei_traits_Replicate 7 M M 100 3) = Dynamic.
Proof.
  intros D M.
  apply (proj1 (ei_traits_Replicate_dynamic_iff 7 M M 100 3)).
  right. right. reflexivity.
Defined.

(** The fixed factors (2,3) over the 2 by 2 matrix [[1,2],[3,4]]. *)
Lemma Replicate_size_matches_traits_witness :
  let D : DynamicMarker := 10000 in
  let M := {| RowsAtCompileTime := 2; ColsAtCompileTime := 2;
              MaxRowsAtCompileTime := 2; MaxColsAtCompileTime := 2;
              Flags := 5; CoeffReadCost := 1 |} in
  let x : Replicate (Matrix Z) 2 3 :=
    mk_Replicate M22 (mk_int_if_dynamic 2) (mk_int_if_dynamic 3) in
  rows x = RowsAtCompileTime (ei_traits_Replicate 7 M M 2 3) /\
  cols x = ColsAtCompileTime (ei_traits_Replicate 7 M M 2 3).
Proof.
  intros D M x.
  apply (Replicate_size_matches_traits 7 M M 2 3 x); by_evaluation.
Defined.
